(** * Confidence intervals for differences of population parameters

    A verification development for the notebook
    [course2/2.5_Confidence_Intervals_Differences_Population_Parameters.ipynb].

    The notebook is straight-line numpy scalar arithmetic over two small
    tables: the smoking cross-tab [ct] and the BMI summary [ta].  Its cells
    are transcribed once, over an arithmetic interface, and read in two
    ways:

    - over the real numbers ([R], exact arithmetic), where the algebraic
      laws of the formulas are proved;
    - over IEEE 754 binary64 (Rocq's primitive [float], the arithmetic of
      numpy's [float64]), where the cells are run on concrete inputs,
      including inputs that make numpy produce [inf] or [nan]. *)

From Stdlib Require Import List.
From Stdlib Require Import Floats Uint63.
From Stdlib Require Import ZArith Reals Lra Lia Bool.
Import ListNotations.

Set Warnings "-inexact-float".

(** ** The arithmetic the cells use *)

(** The operations of numpy [float64] scalars that occur in the notebook:
    [+], [-], [*], [/], [np.sqrt], and the conversion of an [int64] (a
    count, or an integer literal) to [float64]. *)
Class Arith (num : Type) : Type := {
  of_int : Z -> num;
  np_add : num -> num -> num;
  np_sub : num -> num -> num;
  np_mul : num -> num -> num;
  np_div : num -> num -> num;
  np_sqrt : num -> num
}.

Declare Scope np_scope.
Delimit Scope np_scope with np.
Infix "+" := np_add : np_scope.
Infix "-" := np_sub : np_scope.
Infix "*" := np_mul : np_scope.
Infix "/" := np_div : np_scope.

(** Exact arithmetic. *)
#[export] Instance R_arith : Arith R := {
  of_int := IZR;
  np_add := Rplus;
  np_sub := Rminus;
  np_mul := Rmult;
  np_div := Rdiv;
  np_sqrt := R_sqrt.sqrt
}.

(** [int64 -> float64], rounding to nearest even, for [|z| < 2^63].
    [of_uint63] converts [0 <= z < 2^63]; a negative [z] goes through its
    absolute value.  (The integers of the notebook are sizes of groups of
    rows and the literal [1].) *)
Definition of_int64 (z : Z) : float :=
  match z with
  | Z0 => PrimFloat.zero
  | Zpos _ => PrimFloat.of_uint63 (Uint63.of_Z z)
  | Zneg p => PrimFloat.opp (PrimFloat.of_uint63 (Uint63.of_Z (Zpos p)))
  end.

(** binary64 arithmetic, each operation correctly rounded. *)
#[export] Instance float64_arith : Arith float := {
  of_int := of_int64;
  np_add := PrimFloat.add;
  np_sub := PrimFloat.sub;
  np_mul := PrimFloat.mul;
  np_div := PrimFloat.div;
  np_sqrt := PrimFloat.sqrt
}.

(** ** The tables *)

Inductive RIAGENDRx : Set := Female | Male.
Inductive SMQ020x : Set := nosmoke | smoke.

(** [ct = pd.crosstab(dx.RIAGENDRx, dx.SMQ020x)]: a count per sex and
    smoking status. *)
Definition crosstab : Set := RIAGENDRx -> SMQ020x -> Z.

(** A row of [ta = da.groupby("RIAGENDRx").agg({"BMXBMI": ["mean", "std",
    np.size]})]. *)
Record bmi_row (num : Type) : Type := {
  mean : num;
  std : num;
  size : Z
}.
Arguments mean {num} _.
Arguments std {num} _.
Arguments size {num} _.

(** ** The records of the estimator interface

    The notebook passes bare scalars and pairs.  The interface that the
    claims are phrased in groups them in two records. *)
Record SampleSummary (num : Type) : Type := {
  count : Z;
  statistic : num;
  dispersion : num
}.
Arguments count {num} _.
Arguments statistic {num} _.
Arguments dispersion {num} _.

Record IntervalResult (num : Type) : Type := {
  point_estimate : num;
  standard_error : num;
  lower_bound : num;
  upper_bound : num;
  coverage : num
}.
Arguments point_estimate {num} _.
Arguments standard_error {num} _.
Arguments lower_bound {num} _.
Arguments upper_bound {num} _.
Arguments coverage {num} _.

Inductive kind : Set := Proportion | Mean.

(** ** The cells *)

Section Notebook.

Context {num : Type} `{Arith num}.
Local Open Scope np_scope.

(** A decimal literal [m * 10^-e].  Python reads it as the binary64 nearest
    to it.  For the literals used here [m] and [10^e] are exact in binary64
    (below [2^53]) and the division is correctly rounded, so the quotient
    is that same number. *)
Definition decimal (m : Z) (e : nat) : num :=
  of_int m / of_int (10 ^ Z.of_nat e).

(** The literal [1.96] of cells 12 and 23. *)
Definition z_multiplier : num := decimal 196 2.

(** [x**2] for a float64 scalar [x]. *)
Definition square (x : num) : num := x * x.

(** [np.sqrt(pf * (1 - pf) / nf)] and [np.sqrt(pm * (1 - pm) / nm)]. *)
Definition se_proportion (p : num) (n : Z) : num :=
  np_sqrt (p * (of_int 1 - p) / of_int n).

(** [ta.loc[g, ("BMXBMI", "std")] / np.sqrt(ta.loc[g, ("BMXBMI", "size")])]. *)
Definition se_mean (sd : num) (n : Z) : num :=
  sd / np_sqrt (of_int n).

(** [np.sqrt(se_female**2 + se_male**2)] and
    [np.sqrt(sem_female**2 + sem_male**2)]. *)
Definition pool_standard_errors (se_a se_b : num) : num :=
  np_sqrt (square se_a + square se_b).

(** [lcb = di - 1.96 * se_diff] and [ucb = di + 1.96 * se_diff] (the same
    two lines with [sem_diff] in the BMI part). *)
Definition lcb (di se_diff : num) : num := di - z_multiplier * se_diff.
Definition ucb (di se_diff : num) : num := di + z_multiplier * se_diff.

(** *** Difference of two proportions (cells 7 to 12) *)

Definition Total (ct : crosstab) (g : RIAGENDRx) : Z :=
  (ct g nosmoke + ct g smoke)%Z.
Definition nosmoke_prop (ct : crosstab) (g : RIAGENDRx) : num :=
  of_int (ct g nosmoke) / of_int (Total ct g).
Definition smoke_prop (ct : crosstab) (g : RIAGENDRx) : num :=
  of_int (ct g smoke) / of_int (Total ct g).

Definition pf (ct : crosstab) : num := smoke_prop ct Female.
Definition nf (ct : crosstab) : Z := Total ct Female.
Definition se_female (ct : crosstab) : num := se_proportion (pf ct) (nf ct).

Definition pm (ct : crosstab) : num := smoke_prop ct Male.
Definition nm (ct : crosstab) : Z := Total ct Male.
Definition se_male (ct : crosstab) : num := se_proportion (pm ct) (nm ct).

Definition se_diff (ct : crosstab) : num :=
  pool_standard_errors (se_female ct) (se_male ct).

Definition di_smoke (ct : crosstab) : num :=
  smoke_prop ct Male - smoke_prop ct Female.

Definition ci_smoke (ct : crosstab) : num * num :=
  (lcb (di_smoke ct) (se_diff ct), ucb (di_smoke ct) (se_diff ct)).

(** *** Difference of two means (cells 18 to 23) *)

Definition sem_female (ta : RIAGENDRx -> bmi_row num) : num :=
  se_mean (std (ta Female)) (size (ta Female)).
Definition sem_male (ta : RIAGENDRx -> bmi_row num) : num :=
  se_mean (std (ta Male)) (size (ta Male)).

Definition sem_diff (ta : RIAGENDRx -> bmi_row num) : num :=
  pool_standard_errors (sem_female ta) (sem_male ta).

Definition di_bmi (ta : RIAGENDRx -> bmi_row num) : num :=
  mean (ta Female) - mean (ta Male).

Definition ci_bmi (ta : RIAGENDRx -> bmi_row num) : num * num :=
  (lcb (di_bmi ta) (sem_diff ta), ucb (di_bmi ta) (sem_diff ta)).

(** *** The five operations of the estimator interface

    Each is the notebook expression above applied to the fields of its
    argument.  No cell tests its inputs, and the multiplier is the literal
    [1.96] whatever coverage is asked for: [confidence_interval] records
    the coverage it is given and computes the bounds without it. *)

Definition standard_error_proportion (s : SampleSummary num) : num :=
  se_proportion (statistic s) (count s).

Definition standard_error_mean (s : SampleSummary num) : num :=
  se_mean (dispersion s) (count s).

Definition confidence_interval (pe se cov : num) : IntervalResult num :=
  {| point_estimate := pe;
     standard_error := se;
     lower_bound := lcb pe se;
     upper_bound := ucb pe se;
     coverage := cov |}.

Definition group_standard_error (k : kind) (s : SampleSummary num) : num :=
  match k with
  | Proportion => standard_error_proportion s
  | Mean => standard_error_mean s
  end.

Definition difference_interval (a b : SampleSummary num) (k : kind) (cov : num)
  : IntervalResult num :=
  confidence_interval
    (statistic a - statistic b)
    (pool_standard_errors (group_standard_error k a) (group_standard_error k b))
    cov.

(** The summaries that the two tables hold: one group of the cross-tab
    (a proportion carries no dispersion of its own), one row of the BMI
    table. *)
Definition smoking_summary (ct : crosstab) (g : RIAGENDRx) : SampleSummary num :=
  {| count := Total ct g; statistic := smoke_prop ct g; dispersion := of_int 0 |}.

Definition bmi_summary (ta : RIAGENDRx -> bmi_row num) (g : RIAGENDRx)
  : SampleSummary num :=
  {| count := size (ta g); statistic := mean (ta g); dispersion := std (ta g) |}.

End Notebook.

(** ** Preconditions and outcomes of a call *)

Local Open Scope R_scope.

(** The preconditions of the operations, for inputs in exact arithmetic. *)
Definition valid_proportion_summary (s : SampleSummary R) : Prop :=
  0 <= statistic s <= 1 /\ (0 < count s)%Z.

Definition valid_mean_summary (s : SampleSummary R) : Prop :=
  0 <= dispersion s /\ (0 < count s)%Z.

Definition valid_summary (k : kind) (s : SampleSummary R) : Prop :=
  match k with
  | Proportion => valid_proportion_summary s
  | Mean => valid_mean_summary s
  end.



Local Close Scope R_scope.

(** What a call ends in.  numpy's float64 scalar arithmetic signals a
    division by zero or the square root of a negative number with a
    warning and goes on with [inf] or [nan]; the cells contain no [raise],
    no [assert] and no test of their inputs.  So every call of the five
    operations ends in [Returns]. *)
Inductive error : Set := InvalidInput.

Inductive outcome (A : Type) : Type :=
| Returns (v : A)
| Raises (e : error).
Arguments Returns {A} v.
Arguments Raises {A} e.

Section Calls.

Context {num : Type} `{Arith num}.

Definition call_standard_error_proportion (s : SampleSummary num) : outcome num :=
  Returns (standard_error_proportion s).

Definition call_standard_error_mean (s : SampleSummary num) : outcome num :=
  Returns (standard_error_mean s).

Definition call_pool_standard_errors (se_a se_b : num) : outcome num :=
  Returns (pool_standard_errors se_a se_b).

Definition call_confidence_interval (pe se cov : num)
  : outcome (IntervalResult num) :=
  Returns (confidence_interval pe se cov).

Definition call_difference_interval (a b : SampleSummary num) (k : kind)
    (cov : num) : outcome (IntervalResult num) :=
  Returns (difference_interval a b k cov).

End Calls.

(** Preconditions on binary64 inputs, as tests on the values. *)
Definition violates_proportion (s : SampleSummary float) : bool :=
  (count s <=? 0)%Z
  || negb (PrimFloat.leb 0 (statistic s) && PrimFloat.leb (statistic s) 1).

Definition violates_mean (s : SampleSummary float) : bool :=
  (count s <=? 0)%Z || negb (PrimFloat.leb 0 (dispersion s)).

Definition violates_pool (se_a se_b : float) : bool :=
  negb (PrimFloat.leb 0 se_a && PrimFloat.leb 0 se_b).

Definition violates_interval (se cov : float) : bool :=
  negb (PrimFloat.leb 0 se)
  || negb (PrimFloat.ltb 0 cov && PrimFloat.ltb cov 1).

(** [abs (x - expected) < tol], the comparison of a value with the figure
    expected of it. *)
Definition approx (x expected tol : float) : bool :=
  PrimFloat.ltb (PrimFloat.abs (PrimFloat.sub x expected)) tol.

(** ** The data of the notebook and of the scenarios *)

Section Scenarios.

Context {num : Type} `{Arith num}.

(** Smoking: the two groups by their proportion and size, to six
    decimals as cell 7 prints them. *)
Definition female_smoking : SampleSummary num :=
  {| count := 2972; statistic := decimal 304845 6; dispersion := of_int 0 |}.

Definition male_smoking : SampleSummary num :=
  {| count := 2753; statistic := decimal 513258 6; dispersion := of_int 0 |}.

(** BMI: mean, standard deviation and size, as cell 18 prints them. *)
Definition female_bmi : SampleSummary num :=
  {| count := 2976; statistic := decimal 29939946 6;
     dispersion := decimal 7753319 6 |}.

Definition male_bmi : SampleSummary num :=
  {| count := 2759; statistic := decimal 28778072 6;
     dispersion := decimal 6252568 6 |}.

(** The smoking scenario end to end: the difference male minus female at
    coverage 0.95. *)
Definition smoking_difference : IntervalResult num :=
  difference_interval male_smoking female_smoking Proportion (decimal 95 2).

(** The BMI scenario end to end: the difference female minus male. *)
Definition bmi_difference : IntervalResult num :=
  difference_interval female_bmi male_bmi Mean (decimal 95 2).

End Scenarios.

(** Inputs outside the preconditions, in binary64. *)
Definition count_zero_proportion : SampleSummary float :=
  {| count := 0; statistic := 0.5%float; dispersion := 0%float |}.

Definition count_zero_mean : SampleSummary float :=
  {| count := 0; statistic := 29.939946%float;
     dispersion := 7.753319%float |}.

Definition negative_dispersion : SampleSummary float :=
  {| count := 4; statistic := 29.939946%float; dispersion := (-1)%float |}.

Definition proportion_above_one : SampleSummary float :=
  {| count := 10; statistic := 1.5%float; dispersion := 0%float |}.

(** The cross-tab printed by cell 6. *)
Definition ct_nhanes : crosstab := fun g s =>
  match g, s with
  | Female, nosmoke => 2066
  | Female, smoke => 906
  | Male, nosmoke => 1340
  | Male, smoke => 1413
  end%Z.

(** ** The survey table and its preparation (cells 3 to 6)

    [da] is the table read from the survey file.  Of its columns the
    notebook uses the smoking code [SMQ020], the sex code [RIAGENDR] (both
    integer columns) and the body mass index [BMXBMI], a float column in
    which a missing measurement is [NaN]. *)

Record respondent (num : Type) : Type := {
  SMQ020 : Z;
  RIAGENDR : Z;
  BMXBMI : option num
}.
Arguments SMQ020 {num} _.
Arguments RIAGENDR {num} _.
Arguments BMXBMI {num} _.

(** A value of a recoded column: one of the string labels, a code that
    the mapping does not mention and [replace] leaves as it is, or
    [np.nan]. *)
Inductive recoded (L : Set) : Set :=
| Label (l : L)
| Code (z : Z)
| Nan.
Arguments Label {L} l.
Arguments Code {L} z.
Arguments Nan {L}.

(** [da.SMQ020.replace({1: "smoke", 2: "nosmoke", 7: np.nan, 9: np.nan})]. *)
Definition SMQ020_replace (z : Z) : recoded SMQ020x :=
  if (z =? 1)%Z then Label smoke
  else if (z =? 2)%Z then Label nosmoke
  else if ((z =? 7) || (z =? 9))%Z then Nan
  else Code z.

(** [da.RIAGENDR.replace({1: "Male", 2: "Female"})]. *)
Definition RIAGENDR_replace (z : Z) : recoded RIAGENDRx :=
  if (z =? 1)%Z then Label Male
  else if (z =? 2)%Z then Label Female
  else Code z.

(** The codes that the two mappings turn into each label. *)
Definition smoking_code (s : SMQ020x) : Z :=
  match s with smoke => 1 | nosmoke => 2 end.

Definition sex_code (g : RIAGENDRx) : Z :=
  match g with Male => 1 | Female => 2 end.

Definition SMQ020x_eqb (a b : SMQ020x) : bool :=
  match a, b with
  | nosmoke, nosmoke | smoke, smoke => true
  | _, _ => false
  end.

Definition RIAGENDRx_eqb (a b : RIAGENDRx) : bool :=
  match a, b with
  | Female, Female | Male, Male => true
  | _, _ => false
  end.

Definition has_label {L : Set} (eqb : L -> L -> bool) (l : L) (v : recoded L)
  : bool :=
  match v with
  | Label l' => eqb l l'
  | _ => false
  end.

Definition notna {L : Set} (v : recoded L) : bool :=
  match v with
  | Nan => false
  | _ => true
  end.

(** What a lookup by label ends in: [ct["smoke"]] and [ct.loc["Male", ...]]
    raise [KeyError] when the table has no such column or row. *)
Inductive key : Set :=
| Column (s : SMQ020x)
| Row (g : RIAGENDRx).

Inductive lookup (A : Type) : Type :=
| Found (a : A)
| KeyError (k : key).
Arguments Found {A} a.
Arguments KeyError {A} k.

Section Survey.

Context {num : Type} `{Arith num}.

(** The columns added by cells 3 and 5. *)
Definition SMQ020x_of (r : respondent num) : recoded SMQ020x :=
  SMQ020_replace (SMQ020 r).

Definition RIAGENDRx_of (r : respondent num) : recoded RIAGENDRx :=
  RIAGENDR_replace (RIAGENDR r).

Definition count_rows (keep : respondent num -> bool)
    (da : list (respondent num)) : Z :=
  Z.of_nat (length (filter keep da)).

(** [da["SMQ020x"].value_counts()] and [da["RIAGENDRx"].value_counts()], as
    the count of each label ([NaN] is not counted; the order in which the
    labels are printed is not modelled). *)
Definition SMQ020x_value_counts (da : list (respondent num)) (s : SMQ020x)
  : Z :=
  count_rows (fun r => has_label SMQ020x_eqb s (SMQ020x_of r)) da.

Definition RIAGENDRx_value_counts (da : list (respondent num))
    (g : RIAGENDRx) : Z :=
  count_rows (fun r => has_label RIAGENDRx_eqb g (RIAGENDRx_of r)) da.

(** [dx = da[["SMQ020x", "RIAGENDRx"]].dropna()]. *)
Definition dropna (da : list (respondent num)) : list (respondent num) :=
  filter (fun r => notna (SMQ020x_of r) && notna (RIAGENDRx_of r)) da.

(** [ct = pd.crosstab(dx.RIAGENDRx, dx.SMQ020x)]: the number of rows per
    pair of labels, [0] where a pair does not occur; its index and its
    columns are the values that occur in [dx]. *)
Definition pd_crosstab (dx : list (respondent num)) : crosstab :=
  fun g s =>
    count_rows (fun r => has_label RIAGENDRx_eqb g (RIAGENDRx_of r)
                         && has_label SMQ020x_eqb s (SMQ020x_of r)) dx.

Definition index_has (dx : list (respondent num)) (g : RIAGENDRx) : bool :=
  existsb (fun r => has_label RIAGENDRx_eqb g (RIAGENDRx_of r)) dx.

Definition columns_have (dx : list (respondent num)) (s : SMQ020x) : bool :=
  existsb (fun r => has_label SMQ020x_eqb s (SMQ020x_of r)) dx.

(** Cells 7 to 12 on [dx].  Cell 7 reads the column [nosmoke] and then the
    column [smoke]; cell 8 reads the row [Male] and then the row [Female];
    the cells after them read nothing else. *)
Definition smoking_cells (dx : list (respondent num)) : lookup (num * num) :=
  if negb (columns_have dx nosmoke) then KeyError (Column nosmoke)
  else if negb (columns_have dx smoke) then KeyError (Column smoke)
  else if negb (index_has dx Male) then KeyError (Row Male)
  else if negb (index_has dx Female) then KeyError (Row Female)
  else Found (ci_smoke (pd_crosstab dx)).

End Survey.

(** The codes of the survey's codebook: smoking 1, 2, 7 (refused) or 9
    (don't know); sex 1 or 2. *)
Definition documented {num : Type} (r : respondent num) : Prop :=
  (SMQ020 r = 1 \/ SMQ020 r = 2 \/ SMQ020 r = 7 \/ SMQ020 r = 9)%Z
  /\ (RIAGENDR r = 1 \/ RIAGENDR r = 2)%Z.

(** ** The BMI table (cell 18), in exact arithmetic

    [ta = da.groupby("RIAGENDRx").agg({"BMXBMI": ["mean", "std",
    np.size]})].  [mean] and [std] skip the missing values, [std] divides
    by one less than the number of values, and [np.size] is the number of
    rows of the group.  With fewer than two measured values pandas gives
    [NaN] for [std], which exact arithmetic does not have: the statements
    about [ta] assume two measured values per group. *)

Definition group_rows (da : list (respondent R)) (g : RIAGENDRx)
  : list (respondent R) :=
  filter (fun r => has_label RIAGENDRx_eqb g (RIAGENDRx_of r)) da.

Fixpoint measured (rows : list (respondent R)) : list R :=
  match rows with
  | [] => []
  | r :: rest =>
      match BMXBMI r with
      | Some x => x :: measured rest
      | None => measured rest
      end
  end.

Definition total (xs : list R) : R := fold_right Rplus 0%R xs.

Definition pd_mean (xs : list R) : R := (total xs / INR (length xs))%R.

Definition pd_std (xs : list R) : R :=
  sqrt (total (map (fun x => ((x - pd_mean xs) ^ 2)%R) xs)
        / (INR (length xs) - 1))%R.

Definition groupby_agg (da : list (respondent R)) (g : RIAGENDRx)
  : bmi_row R :=
  {| mean := pd_mean (measured (group_rows da g));
     std := pd_std (measured (group_rows da g));
     size := Z.of_nat (length (group_rows da g)) |}.

(** The rows of a group, and those of them with a measured BMI. *)
Definition n_rows (da : list (respondent R)) (g : RIAGENDRx) : nat :=
  length (group_rows da g).

Definition n_measured (da : list (respondent R)) (g : RIAGENDRx) : nat :=
  length (measured (group_rows da g)).

(** A small table for the examples: six respondents, one of whom refused
    the smoking question and two of whom have no BMI. *)
Definition da_example : list (respondent R) :=
  [ {| SMQ020 := 1; RIAGENDR := 1; BMXBMI := Some 27.8%R |};
    {| SMQ020 := 2; RIAGENDR := 1; BMXBMI := Some 30.8%R |};
    {| SMQ020 := 2; RIAGENDR := 2; BMXBMI := Some 28.8%R |};
    {| SMQ020 := 1; RIAGENDR := 2; BMXBMI := Some 42.4%R |};
    {| SMQ020 := 7; RIAGENDR := 2; BMXBMI := None |};
    {| SMQ020 := 2; RIAGENDR := 1; BMXBMI := None |} ].

(** ** binary64 values *)

(** The least exponent of a binary64 mantissa. *)
Definition emin64 : Z := -1074.

(** A float that is finite and positive, or [+inf]. *)
Definition positive_sf (x : spec_float) : Prop :=
  match x with
  | S754_finite false _ _ | S754_infinity false => True
  | _ => False
  end.

(** ** The standard normal distribution

    The notebook contains no distribution function: these definitions state
    what a two-sided critical value is, so that the multiplier of the cells
    can be compared with it. *)

Local Open Scope R_scope.






Local Close Scope R_scope.

(** * The cells and the interface

    The two pipelines of the notebook are [difference_interval] applied to
    the summaries read off the tables, in either arithmetic. *)

Section CellsAndInterface.

Context {num : Type} `{Arith num}.

(** Cell 11 pools the female standard error first and the male one
    second; the difference of cell 8 is male minus female.  Given that
    pooling is symmetric, the cells are [difference_interval] on the male
    and the female summary. *)
Lemma smoking_cells_are_difference_interval (ct : crosstab) (cov : num) :
  (forall x y : num, pool_standard_errors x y = pool_standard_errors y x) ->
  let r := difference_interval (smoking_summary ct Male)
             (smoking_summary ct Female) Proportion cov in
  se_female ct = standard_error_proportion (smoking_summary ct Female)
  /\ se_male ct = standard_error_proportion (smoking_summary ct Male)
  /\ di_smoke ct = point_estimate r
  /\ se_diff ct = standard_error r
  /\ ci_smoke ct = (lower_bound r, upper_bound r).
Proof.
  intros Hcomm r.
  assert (Hse : se_diff ct = standard_error r).
  { unfold se_diff. rewrite Hcomm. reflexivity. }
  repeat split; try exact Hse.
  unfold ci_smoke. rewrite Hse. reflexivity.
Qed.

Lemma bmi_cells_are_difference_interval (ta : RIAGENDRx -> bmi_row num)
    (cov : num) :
  let r := difference_interval (bmi_summary ta Female) (bmi_summary ta Male)
             Mean cov in
  sem_female ta = standard_error_mean (bmi_summary ta Female)
  /\ sem_male ta = standard_error_mean (bmi_summary ta Male)
  /\ di_bmi ta = point_estimate r
  /\ sem_diff ta = standard_error r
  /\ ci_bmi ta = (lower_bound r, upper_bound r).
Proof. intro r. repeat split. Qed.

End CellsAndInterface.

(** * binary64: laws that hold exactly

    Facts about the binary64 reading that hold for all inputs, proved from
    the specification of the primitive operations. *)

Section Binary64Laws.

Local Open Scope Z_scope.

Lemma digits2_pos_size (m : positive) : digits2_pos m = Pos.size m.
Proof. induction m; simpl; congruence. Qed.

(** [2^(digits - 1) <= m < 2^digits]. *)
Lemma digits2_pos_bounds (m : positive) :
  2 ^ (Zpos (digits2_pos m) - 1) <= Zpos m < 2 ^ Zpos (digits2_pos m).
Proof.
  rewrite digits2_pos_size.
  pose proof (Pos.size_gt m) as Hgt. pose proof (Pos.size_le m) as Hle.
  split.
  - assert (H2 : (2 ^ Pos.size m <= m~0)%positive) by exact Hle.
    assert (Zpos (2 ^ Pos.size m) <= Zpos m~0) by (apply Pos2Z.pos_le_pos; exact H2).
    rewrite Pos2Z.inj_pow in H.
    replace (Zpos (Pos.size m)) with (Z.succ (Zpos (Pos.size m) - 1)) in H by lia.
    rewrite Z.pow_succ_r in H by lia. lia.
  - assert (Zpos m < Zpos (2 ^ Pos.size m)) by (apply Pos2Z.pos_lt_pos; exact Hgt).
    rewrite Pos2Z.inj_pow in H. exact H.
Qed.

Lemma shr_1_m (r : shr_record) : 0 <= shr_m r -> shr_m (shr_1 r) = Z.div2 (shr_m r).
Proof.
  destruct r as [m r s]; simpl. intros Hm.
  destruct m as [| [p | p |] | p]; simpl; try reflexivity; lia.
Qed.

Lemma iter_pos_shr_1_m (p : positive) : forall r : shr_record,
  0 <= shr_m r -> shr_m (SpecFloat.iter_pos shr_1 p r) = Z.shiftr (shr_m r) (Zpos p).
Proof.
  induction p as [p IH | p IH |]; intros r Hr; simpl.
  - assert (H1 : 0 <= shr_m (shr_1 r)).
    { rewrite shr_1_m by exact Hr. rewrite Z.div2_spec. apply Z.shiftr_nonneg. exact Hr. }
    assert (H2 : 0 <= shr_m (SpecFloat.iter_pos shr_1 p (shr_1 r))).
    { rewrite IH by exact H1. apply Z.shiftr_nonneg. exact H1. }
    rewrite IH by exact H2. rewrite IH by exact H1.
    rewrite shr_1_m by exact Hr. rewrite Z.div2_spec.
    rewrite !Z.shiftr_shiftr by lia. f_equal. lia.
  - assert (H2 : 0 <= shr_m (SpecFloat.iter_pos shr_1 p r)).
    { rewrite IH by exact Hr. apply Z.shiftr_nonneg. exact Hr. }
    rewrite IH by exact H2. rewrite IH by exact Hr.
    rewrite !Z.shiftr_shiftr by lia. f_equal. lia.
  - rewrite shr_1_m by exact Hr. apply Z.div2_spec.
Qed.

Lemma shr_record_of_loc_m (m : Z) (l : location) : shr_m (shr_record_of_loc m l) = m.
Proof. destruct l as [| []]; reflexivity. Qed.

(** A positive mantissa stays positive through the shift that brings it to
    its canonical exponent, provided the exponent is not below [emin]. *)
Lemma shr_fexp_positive (m : positive) (e : Z) (l : location) :
  emin64 <= e ->
  0 < shr_m (fst (shr_fexp prec emax (Zpos m) e l))
  /\ emin64 <= snd (shr_fexp prec emax (Zpos m) e l).
Proof.
  intros He. unfold shr_fexp, shr.
  pose proof (digits2_pos_bounds m) as [Hlo _].
  cbn [Zdigits2].
  set (d := Zpos (digits2_pos m)) in *.
  assert (Hd : 1 <= d) by (unfold d; lia).
  destruct (fexp prec emax (d + e) - e) as [| p | p] eqn:Hn; cbn [fst snd];
    rewrite ?shr_record_of_loc_m; try (split; [lia | exact He]).
  unfold fexp, SpecFloat.emin, prec, emax, emin64 in *.
  assert (Hp : Zpos p = d - 53) by lia.
  split; [| lia].
  rewrite iter_pos_shr_1_m by (rewrite shr_record_of_loc_m; lia).
  rewrite shr_record_of_loc_m, Z.shiftr_div_pow2 by lia.
  apply Z.div_str_pos. split; [apply Z.pow_pos_nonneg; lia |].
  apply Z.le_trans with (2 ^ (d - 1)); [| exact Hlo].
  apply Z.pow_le_mono_r; lia.
Qed.

Lemma round_nearest_even_positive (m : Z) (l : location) :
  0 < m -> 0 < round_nearest_even m l.
Proof.
  intros Hm. destruct l as [| []]; simpl; try lia.
  destruct (Z.even m); lia.
Qed.

Lemma binary_round_aux_positive (m : positive) (e : Z) (l : location) :
  emin64 <= e -> positive_sf (binary_round_aux prec emax false (Zpos m) e l).
Proof.
  intros He. unfold binary_round_aux.
  pose proof (shr_fexp_positive m e l He) as [Hm1 He1].
  destruct (shr_fexp prec emax (Zpos m) e l) as [mrs' e'] eqn:H1.
  cbn [fst snd] in Hm1, He1.
  pose proof (round_nearest_even_positive (shr_m mrs') (loc_of_shr_record mrs') Hm1) as Hm2.
  destruct (round_nearest_even (shr_m mrs') (loc_of_shr_record mrs')) as [| m2 | m2]; try lia.
  pose proof (shr_fexp_positive m2 e' loc_Exact He1) as [Hm3 _].
  destruct (shr_fexp prec emax (Zpos m2) e' loc_Exact) as [mrs'' e''].
  cbn [fst] in Hm3.
  destruct (shr_m mrs'') as [| m3 | m3]; try lia.
  destruct (e'' <=? emax - prec); exact I.
Qed.

Lemma binary_normalize_positive (m : positive) :
  positive_sf (binary_normalize prec emax (Zpos m) 0 false).
Proof.
  unfold binary_normalize, binary_round.
  destruct (shl_align m 0 (fexp prec emax (Zpos (digits2_pos m) + 0))) as [mz ez] eqn:Hal.
  apply binary_round_aux_positive.
  unfold shl_align in Hal.
  destruct (fexp prec emax (Zpos (digits2_pos m) + 0) - 0) as [| d | d] eqn:Hd;
    inversion Hal; subst; unfold emin64; try lia.
  unfold fexp, SpecFloat.emin, prec, emax in *. lia.
Qed.

Lemma of_uint63_positive (n : Z) :
  0 < n < 2 ^ 63 -> positive_sf (Prim2SF (of_uint63 (Uint63.of_Z n))).
Proof.
  intros Hn. rewrite of_uint63_spec, Uint63.of_Z_spec.
  rewrite Z.mod_small by (change wB with (2 ^ 63); lia).
  destruct n as [| p | p]; try lia.
  apply binary_normalize_positive.
Qed.

Lemma zero_div_positive (y : float) :
  positive_sf (Prim2SF y) -> PrimFloat.div 0 y = 0%float.
Proof.
  intros Hy. apply Prim2SF_inj. rewrite FloatAxioms.div_spec.
  change (Prim2SF 0) with (S754_zero false).
  destruct (Prim2SF y) as [s | s | | s m e]; try contradiction;
    destruct s; try contradiction; reflexivity.
Qed.

Lemma SF64add_comm (x y : spec_float) : SF64add x y = SF64add y x.
Proof.
  unfold SF64add, SFadd.
  destruct x as [[|] | [|] | | sx mx ex], y as [[|] | [|] | | sy my ey];
    try reflexivity.
  cbv zeta. rewrite (Z.min_comm ex ey). f_equal. apply Z.add_comm.
Qed.

Lemma float_add_comm (x y : float) : PrimFloat.add x y = PrimFloat.add y x.
Proof.
  apply Prim2SF_inj. rewrite !FloatAxioms.add_spec. apply SF64add_comm.
Qed.

(** The conversion of a positive count is a positive float. *)
Lemma of_int64_positive (n : Z) :
  0 < n < 2 ^ 63 -> positive_sf (Prim2SF (of_int64 n)).
Proof.
  intros Hn. destruct n as [| p | p]; try lia.
  apply of_uint63_positive. exact Hn.
Qed.

(** With a positive count, a proportion of exactly [0.0] or [1.0] has
    standard error exactly [+0.0]. *)
Lemma se_proportion_degenerate_binary64 (n : Z) :
  0 < n < 2 ^ 63 ->
  se_proportion 0%float n = 0%float /\ se_proportion 1%float n = 0%float.
Proof.
  intros Hn.
  pose proof (zero_div_positive (of_int64 n) (of_int64_positive n Hn)) as Hdiv.
  unfold se_proportion. cbn [np_sqrt np_mul np_sub np_div of_int float64_arith].
  replace (PrimFloat.mul 0 (PrimFloat.sub (of_int64 1) 0)) with 0%float
    by (vm_compute; reflexivity).
  replace (PrimFloat.mul 1 (PrimFloat.sub (of_int64 1) 1)) with 0%float
    by (vm_compute; reflexivity).
  rewrite Hdiv. split; vm_compute; reflexivity.
Qed.

(** Pooling is symmetric in binary64 as well. *)
Lemma pool_standard_errors_comm_binary64 (se_a se_b : float) :
  pool_standard_errors se_a se_b = pool_standard_errors se_b se_a.
Proof.
  unfold pool_standard_errors. cbn [np_sqrt np_add float64_arith].
  rewrite float_add_comm. reflexivity.
Qed.

(** So cells 8 to 12, run in binary64 on any cross-tab, compute the
    interval of [difference_interval]. *)
Lemma smoking_cells_binary64 (ct : crosstab) (cov : float) :
  ci_smoke ct
  = (lower_bound (difference_interval (smoking_summary ct Male)
                    (smoking_summary ct Female) Proportion cov),
     upper_bound (difference_interval (smoking_summary ct Male)
                    (smoking_summary ct Female) Proportion cov)).
Proof.
  apply (smoking_cells_are_difference_interval ct cov
           pool_standard_errors_comm_binary64).
Qed.

End Binary64Laws.

(** * Exact arithmetic: the laws of the formulas *)

Section ExactLaws.

Local Open Scope R_scope.

(** ** The cells as real expressions *)

Lemma decimal_exact (m : Z) (e : nat) :
  (decimal m e : R) = IZR m / IZR (10 ^ Z.of_nat e).
Proof. reflexivity. Qed.

Lemma z_multiplier_exact : (z_multiplier : R) = 1.96.
Proof. unfold z_multiplier. rewrite decimal_exact. reflexivity. Qed.


Lemma square_exact (x : R) : square x = x ^ 2.
Proof. unfold square; simpl. ring. Qed.

Lemma se_proportion_exact (p : R) (n : Z) :
  se_proportion p n = sqrt (p * (1 - p) / IZR n).
Proof. reflexivity. Qed.

Lemma se_mean_exact (sd : R) (n : Z) : se_mean sd n = sd / sqrt (IZR n).
Proof. reflexivity. Qed.

Lemma pool_exact (se_a se_b : R) :
  pool_standard_errors se_a se_b = sqrt (se_a ^ 2 + se_b ^ 2).
Proof.
  unfold pool_standard_errors. rewrite !square_exact. reflexivity.
Qed.

Lemma lcb_exact (di se : R) : lcb di se = di - 1.96 * se.
Proof. unfold lcb. rewrite z_multiplier_exact. reflexivity. Qed.

Lemma ucb_exact (di se : R) : ucb di se = di + 1.96 * se.
Proof. unfold ucb. rewrite z_multiplier_exact. reflexivity. Qed.

Lemma pool_nonneg (se_a se_b : R) : 0 <= pool_standard_errors se_a se_b.
Proof. rewrite pool_exact. apply sqrt_pos. Qed.



Lemma sum_squares_comm (a b : R) : a ^ 2 + b ^ 2 = b ^ 2 + a ^ 2.
Proof. ring. Qed.

(** ** Standard errors *)



(** C4.  For a summary with [dispersion >= 0] and [n > 0], the standard
    error of the mean is [dispersion / sqrt n]: a non-negative number
    whose product with [sqrt n] gives the dispersion back.  In binary64 the
    call returns the rounded quotient of the dispersion by the rounded
    root of the count. *)
Theorem standard_error_mean_formula (s : SampleSummary R) :
  valid_mean_summary s ->
  standard_error_mean s = dispersion s / sqrt (IZR (count s))
  /\ call_standard_error_mean s
     = Returns (dispersion s / sqrt (IZR (count s)))
  /\ 0 <= standard_error_mean s
  /\ standard_error_mean s * sqrt (IZR (count s)) = dispersion s
  /\ (forall t : SampleSummary float,
        call_standard_error_mean t
        = Returns (PrimFloat.div (dispersion t)
                     (PrimFloat.sqrt (of_int64 (count t))))).
Proof.
  intros [Hd Hn].
  unfold call_standard_error_mean, standard_error_mean.
  rewrite se_mean_exact.
  assert (Hroot : 0 < sqrt (IZR (count s))).
  { apply sqrt_lt_R0. apply (IZR_lt 0). exact Hn. }
  split; [reflexivity | split; [reflexivity | split; [| split]]].
  - apply Rmult_le_pos; [exact Hd |].
    left. apply Rinv_0_lt_compat. exact Hroot.
  - field. lra.
  - intros t. reflexivity.
Qed.

Lemma standard_error_mean_formula_witness :
  valid_mean_summary female_bmi
  /\ standard_error_mean female_bmi = 7.753319 / sqrt 2976.
Proof.
  assert (Hs : valid_mean_summary (female_bmi : SampleSummary R)).
  { unfold valid_mean_summary; simpl.
    split; [lra | lia]. }
  split; [exact Hs |].
  rewrite (proj1 (standard_error_mean_formula female_bmi Hs)).
  simpl. reflexivity.
Defined.

(** ** Pooling *)





(** ** Intervals *)








End ExactLaws.

(** * The multiplier and the normal critical value *)

Section CriticalValue.

Local Open Scope R_scope.










End CriticalValue.

(** * binary64: the cells run *)

Section Binary64Runs.

Local Open Scope float_scope.

(** ** Literals and the notebook's own figures *)

Lemma z_multiplier_binary64 : (z_multiplier : float) = 1.96.
Proof. vm_compute. reflexivity. Qed.

Lemma scenario_literals_binary64 :
  statistic (female_smoking : SampleSummary float) = 0.304845
  /\ statistic (male_smoking : SampleSummary float) = 0.513258
  /\ statistic (female_bmi : SampleSummary float) = 29.939946
  /\ dispersion (female_bmi : SampleSummary float) = 7.753319
  /\ statistic (male_bmi : SampleSummary float) = 28.778072
  /\ dispersion (male_bmi : SampleSummary float) = 6.252568
  /\ coverage (smoking_difference : IntervalResult float) = 0.95.
Proof. vm_compute. repeat split. Qed.

(** Run on the cross-tab of cell 6, the cells give the figures the
    notebook prints, digit for digit: cells 8 to 12. *)
Lemma smoking_cells_reproduce_printed_output :
  di_smoke ct_nhanes = 0.20841304163963553
  /\ se_female ct_nhanes = 0.008444152146214435
  /\ se_male ct_nhanes = 0.009526078653689868
  /\ se_diff ct_nhanes = 0.012729881381407434
  /\ ci_smoke ct_nhanes = (0.18346247413207697, 0.2333636091471941).
Proof. vm_compute. repeat split. Qed.

(** Cell 21 from the figures printed by cell 20. *)
Lemma bmi_pooling_reproduces_printed_output :
  pool_standard_errors 0.14212522940758335 0.11903715722332033
  = 0.18538992862064455.
Proof. vm_compute. reflexivity. Qed.

(** ** Inputs outside the preconditions *)

(** C2, as stated, fails: a proportion summary with [count = 0] violates
    the precondition, and the call does not raise [InvalidInput]. *)
Lemma count_zero_is_not_rejected :
  ~ (violates_proportion count_zero_proportion = true ->
     call_standard_error_proportion count_zero_proportion
     = Raises InvalidInput).
Proof.
  intros Hclaim.
  assert (Hv : violates_proportion count_zero_proportion = true)
    by (vm_compute; reflexivity).
  specialize (Hclaim Hv). discriminate Hclaim.
Qed.

(** C2, amended.  No operation tests its inputs and none raises: every
    call returns the value of its expression.  For [count = 0] that value
    is [inf]; for [dispersion = -1] it is negative; for a proportion of
    [1.5] it is [nan]; a negative standard error is pooled like its
    absolute value and gives an interval with its bounds swapped; and
    coverage [0] or [1] gives the same bounds as any other coverage. *)
Theorem calls_return_without_validation :
  (forall (s : SampleSummary float) (e : error),
      call_standard_error_proportion s <> Raises e
      /\ call_standard_error_mean s <> Raises e)
  /\ (forall (se_a se_b : float) (e : error),
      call_pool_standard_errors se_a se_b <> Raises e)
  /\ (forall (pe se cov : float) (e : error),
      call_confidence_interval pe se cov <> Raises e)
  /\ (forall (a b : SampleSummary float) (k : kind) (cov : float) (e : error),
      call_difference_interval a b k cov <> Raises e)
  /\ (violates_proportion count_zero_proportion = true
      /\ call_standard_error_proportion count_zero_proportion
         = Returns infinity)
  /\ (violates_mean count_zero_mean = true
      /\ call_standard_error_mean count_zero_mean = Returns infinity)
  /\ (violates_mean negative_dispersion = true
      /\ call_standard_error_mean negative_dispersion = Returns (-0.5))
  /\ (violates_proportion proportion_above_one = true
      /\ call_standard_error_proportion proportion_above_one = Returns nan)
  /\ (violates_pool (-3) 4 = true
      /\ call_pool_standard_errors (-3) 4 = Returns 5)
  /\ (violates_interval (-1) 0.95 = true
      /\ call_confidence_interval 0 (-1) 0.95
         = Returns {| point_estimate := 0; standard_error := -1;
                      lower_bound := 1.96; upper_bound := -1.96;
                      coverage := 0.95 |})
  /\ (violates_interval 1 0 = true
      /\ call_confidence_interval 0 1 0
         = Returns {| point_estimate := 0; standard_error := 1;
                      lower_bound := -1.96; upper_bound := 1.96;
                      coverage := 0 |})
  /\ (violates_interval 1 1 = true
      /\ call_confidence_interval 0 1 1
         = Returns {| point_estimate := 0; standard_error := 1;
                      lower_bound := -1.96; upper_bound := 1.96;
                      coverage := 1 |}).
Proof.
  split; [intros s e; split; discriminate |].
  split; [intros se_a se_b e; discriminate |].
  split; [intros pe se cov e; discriminate |].
  split; [intros a b k cov e; discriminate |].
  repeat split; vm_compute; reflexivity.
Qed.

End Binary64Runs.

(** * The smoking scenario end to end *)

Section SmokingScenario.

Local Open Scope R_scope.

(** A square root lies strictly between two non-negative numbers whose
    squares enclose its argument. *)
Lemma sqrt_strictly_between (lo hi x : R) :
  0 <= lo -> 0 <= hi -> lo * lo < x < hi * hi -> lo < sqrt x < hi.
Proof.
  intros Hlo Hhi [Hl Hh].
  assert (H0 : 0 <= lo * lo) by (apply Rmult_le_pos; assumption).
  split.
  - rewrite <- (sqrt_square lo Hlo) at 1.
    apply sqrt_lt_1_alt. split; assumption.
  - rewrite <- (sqrt_square hi Hhi) at 1.
    apply sqrt_lt_1_alt. split; lra.
Qed.

Lemma Rabs_lt_between (x c tol : R) : c - tol < x < c + tol -> Rabs (x - c) < tol.
Proof. intros [Hl Hh]. apply Rabs_def1; lra. Qed.

(** The squared standard errors of the two groups. *)
Lemma female_smoking_variance :
  standard_error_proportion female_smoking
  = sqrt (0.304845 * (1 - 0.304845) / 2972).
Proof. reflexivity. Qed.

Lemma male_smoking_variance :
  standard_error_proportion male_smoking
  = sqrt (0.513258 * (1 - 0.513258) / 2753).
Proof. reflexivity. Qed.

Lemma female_smoking_se_bounds :
  0.00844415 < standard_error_proportion female_smoking < 0.00844416.
Proof.
  rewrite female_smoking_variance.
  apply sqrt_strictly_between; lra.
Qed.

Lemma male_smoking_se_bounds :
  0.00952607 < standard_error_proportion male_smoking < 0.00952608.
Proof.
  rewrite male_smoking_variance.
  apply sqrt_strictly_between; lra.
Qed.

(** Pooling two square roots gives the square root of the sum of their
    arguments. *)
Lemma pool_of_roots (x y : R) :
  0 <= x -> 0 <= y -> pool_standard_errors (sqrt x) (sqrt y) = sqrt (x + y).
Proof.
  intros Hx Hy. rewrite pool_exact.
  f_equal. simpl. rewrite !Rmult_1_r, !sqrt_sqrt by assumption. reflexivity.
Qed.

Lemma smoking_pooled_se_bounds :
  0.01272988 < standard_error smoking_difference < 0.01272989.
Proof.
  unfold smoking_difference, difference_interval, confidence_interval.
  cbn [standard_error group_standard_error].
  rewrite female_smoking_variance, male_smoking_variance.
  rewrite pool_of_roots by lra.
  apply sqrt_strictly_between; lra.
Qed.

Lemma smoking_point_difference :
  point_estimate smoking_difference = 0.208413.
Proof.
  unfold smoking_difference, difference_interval, confidence_interval.
  cbn [point_estimate]. simpl. lra.
Qed.

Lemma smoking_bounds_from_parts :
  lower_bound smoking_difference
  = point_estimate smoking_difference
    - 1.96 * standard_error smoking_difference
  /\ upper_bound smoking_difference
     = point_estimate smoking_difference
       + 1.96 * standard_error smoking_difference.
Proof.
  unfold smoking_difference, difference_interval, confidence_interval.
  cbn [lower_bound upper_bound point_estimate standard_error].
  rewrite lcb_exact, ucb_exact. split; reflexivity.
Qed.

(** The same figures in binary64, compared as a test would compare
    them. *)
Lemma smoking_scenario_binary64 :
  approx (standard_error_proportion female_smoking) 0.0084442 5e-8 = true
  /\ approx (standard_error_proportion male_smoking) 0.0095261 5e-8 = true
  /\ approx (standard_error smoking_difference) 0.0127299 5e-8 = true
  /\ approx (point_estimate smoking_difference) 0.208413 5e-7 = true
  /\ approx (lower_bound smoking_difference) 0.183462 5e-7 = true
  /\ approx (upper_bound smoking_difference) 0.233364 5e-7 = true.
Proof. vm_compute. repeat split. Qed.

(** The BMI scenario through the same composition with [kind = Mean]:
    standard errors of the mean, pooling, the difference female minus
    male, the interval. *)
Lemma bmi_scenario_binary64 :
  approx (standard_error_mean female_bmi) 0.142125 1e-6 = true
  /\ approx (standard_error_mean male_bmi) 0.119037 1e-6 = true
  /\ approx (standard_error bmi_difference) 0.185390 1e-6 = true
  /\ approx (point_estimate bmi_difference) 1.161874 1e-6 = true
  /\ approx (lower_bound bmi_difference) 0.798509 1e-6 = true
  /\ approx (upper_bound bmi_difference) 1.525238 1e-6 = true.
Proof. vm_compute. repeat split. Qed.

(** C9.  Female [p = 0.304845], [n = 2972]; male [p = 0.513258],
    [n = 2753].  The composition (a standard error per group, pooling, the
    difference male minus female, the interval at coverage 0.95) gives
    standard errors 0.0084442 and 0.0095261, pooled standard error
    0.0127299, point difference 0.208413 and interval (0.183462,
    0.233364), each to within half a unit of its last digit: in exact
    arithmetic and in binary64. *)
Theorem smoking_scenario_figures :
  (Rabs (standard_error_proportion female_smoking - 0.0084442) < 5e-8
   /\ Rabs (standard_error_proportion male_smoking - 0.0095261) < 5e-8
   /\ Rabs (standard_error smoking_difference - 0.0127299) < 5e-8
   /\ point_estimate smoking_difference = 0.208413
   /\ Rabs (lower_bound smoking_difference - 0.183462) < 5e-7
   /\ Rabs (upper_bound smoking_difference - 0.233364) < 5e-7)
  /\
  (approx (standard_error_proportion female_smoking) 0.0084442 5e-8 = true
   /\ approx (standard_error_proportion male_smoking) 0.0095261 5e-8 = true
   /\ approx (standard_error smoking_difference) 0.0127299 5e-8 = true
   /\ approx (point_estimate smoking_difference) 0.208413 5e-7 = true
   /\ approx (lower_bound smoking_difference) 0.183462 5e-7 = true
   /\ approx (upper_bound smoking_difference) 0.233364 5e-7 = true).
Proof.
  split; [| exact smoking_scenario_binary64].
  pose proof female_smoking_se_bounds as Hf.
  pose proof male_smoking_se_bounds as Hm.
  pose proof smoking_pooled_se_bounds as Hp.
  pose proof smoking_point_difference as Hd.
  destruct smoking_bounds_from_parts as [Hl Hu].
  rewrite Hl, Hu, Hd.
  repeat split; try (apply Rabs_lt_between; lra).
Qed.

End SmokingScenario.

(** * The data preparation: from the survey table to the cross-tab *)

Section SurveyCounts.

Context {num : Type} `{Arith num}.

Local Open Scope Z_scope.

Lemma count_rows_cons (keep : respondent num -> bool) (r : respondent num)
    (da : list (respondent num)) :
  count_rows keep (r :: da)
  = (if keep r then 1 else 0) + count_rows keep da.
Proof.
  unfold count_rows. cbn [filter]. destruct (keep r); cbn [length]; lia.
Qed.

Lemma count_rows_nonneg (keep : respondent num -> bool)
    (da : list (respondent num)) :
  0 <= count_rows keep da.
Proof. unfold count_rows. lia. Qed.

(** Counting in a filtered table is counting with both tests. *)
Lemma count_rows_filter (keep sel : respondent num -> bool)
    (da : list (respondent num)) :
  count_rows keep (filter sel da) = count_rows (fun r => sel r && keep r) da.
Proof.
  induction da as [| r da IH]; [reflexivity |].
  simpl filter. rewrite count_rows_cons.
  destruct (sel r); [rewrite count_rows_cons |]; rewrite IH; reflexivity.
Qed.

(** Two tests that agree on the rows of the table count the same. *)
Lemma count_rows_ext (keep keep' : respondent num -> bool)
    (da : list (respondent num)) :
  Forall (fun r => keep r = keep' r) da ->
  count_rows keep da = count_rows keep' da.
Proof.
  induction 1 as [| r da Hr _ IH]; [reflexivity |].
  rewrite !count_rows_cons, Hr, IH. reflexivity.
Qed.

(** A test that is the exclusive disjunction of two others counts their
    sum. *)
Lemma count_rows_split (keep left right : respondent num -> bool)
    (da : list (respondent num)) :
  Forall (fun r => keep r = xorb (left r) (right r)
                   /\ left r && right r = false) da ->
  count_rows keep da = count_rows left da + count_rows right da.
Proof.
  induction 1 as [| r da [Hr Hd] _ IH]; [reflexivity |].
  rewrite !count_rows_cons, Hr, IH.
  destruct (left r), (right r); cbn [xorb andb] in *; try discriminate; lia.
Qed.

Lemma count_rows_positive (keep : respondent num -> bool)
    (da : list (respondent num)) :
  0 < count_rows keep da <-> existsb keep da = true.
Proof.
  induction da as [| r da IH].
  { unfold count_rows. cbn [filter length existsb].
    split; intro Hc; [exfalso; lia | discriminate Hc]. }
  rewrite count_rows_cons. cbn [existsb].
  pose proof (count_rows_nonneg keep da) as Hnn.
  destruct (keep r); cbn [orb].
  - split; intros _; [reflexivity | lia].
  - rewrite <- IH. lia.
Qed.

(** What the two mappings do to a documented row. *)
Lemma documented_cases (r : respondent num) :
  documented r ->
  (SMQ020x_of r = Label smoke /\ SMQ020 r = 1
   \/ SMQ020x_of r = Label nosmoke /\ SMQ020 r = 2
   \/ SMQ020x_of r = Nan /\ (SMQ020 r = 7 \/ SMQ020 r = 9))
  /\ (RIAGENDRx_of r = Label Male /\ RIAGENDR r = 1
      \/ RIAGENDRx_of r = Label Female /\ RIAGENDR r = 2).
Proof.
  unfold documented, SMQ020x_of, RIAGENDRx_of, SMQ020_replace,
    RIAGENDR_replace.
  intros [[Hs | [Hs | [Hs | Hs]]] [Hg | Hg]]; rewrite Hs, Hg; simpl; tauto.
Qed.

End SurveyCounts.

Section CrossTab.

Context {num : Type} `{Arith num}.

Local Open Scope Z_scope.

(** The contribution of the first row to each count, read off its two
    codes; the rest by the induction hypothesis. *)
Ltac count_row_by_row Hdoc :=
  let r := fresh "r" in
  let Hr := fresh "Hr" in
  let IH := fresh "IH" in
  induction Hdoc as [| r ? Hr ? IH]; [reflexivity |];
  rewrite !count_rows_cons; cbv beta;
  destruct (documented_cases r Hr)
    as [[[Hs Hc] | [[Hs Hc] | [Hs [Hc | Hc]]]] [[Hg Hgc] | [Hg Hgc]]];
  rewrite ?Hs, ?Hg, ?Hc, ?Hgc;
  repeat match goal with
         | |- context [if ?b then _ else _] =>
             let v := eval vm_compute in b in
             change b with v; cbv iota
         end;
  lia.

Lemma crosstab_cell_counts_codes (da : list (respondent num))
    (g : RIAGENDRx) (s : SMQ020x) :
  Forall documented da ->
  pd_crosstab (dropna da) g s
  = count_rows (fun r => (RIAGENDR r =? sex_code g)
                         && (SMQ020 r =? smoking_code s)) da.
Proof.
  intros Hdoc. unfold pd_crosstab, dropna. rewrite count_rows_filter.
  destruct g, s; cbn [sex_code smoking_code]; count_row_by_row Hdoc.
Qed.

Lemma crosstab_column_sums (da : list (respondent num)) (s : SMQ020x) :
  Forall documented da ->
  pd_crosstab (dropna da) Female s + pd_crosstab (dropna da) Male s
  = SMQ020x_value_counts da s.
Proof.
  intros Hdoc. unfold pd_crosstab, dropna, SMQ020x_value_counts.
  rewrite !count_rows_filter.
  destruct s; count_row_by_row Hdoc.
Qed.

Lemma crosstab_row_totals (da : list (respondent num)) (g : RIAGENDRx) :
  Forall documented da ->
  Total (pd_crosstab (dropna da)) g
  + count_rows (fun r => (RIAGENDR r =? sex_code g)
                         && ((SMQ020 r =? 7) || (SMQ020 r =? 9))) da
  = RIAGENDRx_value_counts da g.
Proof.
  intros Hdoc. unfold Total, pd_crosstab, dropna, RIAGENDRx_value_counts.
  rewrite !count_rows_filter.
  destruct g; cbn [sex_code]; count_row_by_row Hdoc.
Qed.

Lemma crosstab_grand_total (da : list (respondent num)) :
  Forall documented da ->
  Total (pd_crosstab (dropna da)) Female + Total (pd_crosstab (dropna da)) Male
  = Z.of_nat (length (dropna da)).
Proof.
  intros Hdoc.
  change (Z.of_nat (length (dropna da)))
    with (count_rows (fun r => notna (SMQ020x_of r) && notna (RIAGENDRx_of r))
            da).
  unfold Total, pd_crosstab, dropna. rewrite !count_rows_filter.
  count_row_by_row Hdoc.
Qed.

(** In the table after [dropna], the rows of a sex are the row total of
    the cross-tab, and the rows of a status are its column sum. *)
Lemma dropna_sex_counts (da : list (respondent num)) (g : RIAGENDRx) :
  Forall documented da ->
  RIAGENDRx_value_counts (dropna da) g = Total (pd_crosstab (dropna da)) g.
Proof.
  intros Hdoc. unfold Total, pd_crosstab, dropna, RIAGENDRx_value_counts.
  rewrite !count_rows_filter.
  destruct g; count_row_by_row Hdoc.
Qed.

Lemma dropna_status_counts (da : list (respondent num)) (s : SMQ020x) :
  Forall documented da ->
  SMQ020x_value_counts (dropna da) s = SMQ020x_value_counts da s.
Proof.
  intros Hdoc. unfold dropna, SMQ020x_value_counts.
  rewrite !count_rows_filter.
  destruct s; count_row_by_row Hdoc.
Qed.

Lemma has_iff_ltb (b : bool) (n : Z) : (b = true <-> 0 < n) -> b = (0 <? n).
Proof.
  intros Hiff. destruct (Z.ltb_spec 0 n) as [Hlt | Hge].
  - apply Hiff. exact Hlt.
  - destruct b; [| reflexivity]. destruct Hiff as [Hpos _].
    specialize (Hpos eq_refl). lia.
Qed.

Lemma columns_have_iff (dx : list (respondent num)) (s : SMQ020x) :
  columns_have dx s = true <-> 0 < SMQ020x_value_counts dx s.
Proof. symmetry. apply count_rows_positive. Qed.

Lemma index_has_iff (dx : list (respondent num)) (g : RIAGENDRx) :
  index_has dx g = true <-> 0 < RIAGENDRx_value_counts dx g.
Proof. symmetry. apply count_rows_positive. Qed.

(** X1.  The cross-tab accounts for every row of the survey table.  With the
    codes of the codebook: each cell counts the rows with the two codes
    behind its labels; a column sums to the [value_counts] of its status
    (cell 4); a row total and the refusals of that sex add up to the
    [value_counts] of the sex (cell 5); and the four cells add up to the
    number of rows that [dropna] keeps. *)
Theorem crosstab_accounts_for_every_row (da : list (respondent num)) :
  Forall documented da ->
  (forall (g : RIAGENDRx) (s : SMQ020x),
      pd_crosstab (dropna da) g s
      = count_rows (fun r => (RIAGENDR r =? sex_code g)
                             && (SMQ020 r =? smoking_code s)) da)
  /\ (forall s : SMQ020x,
        pd_crosstab (dropna da) Female s + pd_crosstab (dropna da) Male s
        = SMQ020x_value_counts da s)
  /\ (forall g : RIAGENDRx,
        Total (pd_crosstab (dropna da)) g
        + count_rows (fun r => (RIAGENDR r =? sex_code g)
                               && ((SMQ020 r =? 7) || (SMQ020 r =? 9))) da
        = RIAGENDRx_value_counts da g)
  /\ Total (pd_crosstab (dropna da)) Female
     + Total (pd_crosstab (dropna da)) Male
     = Z.of_nat (length (dropna da)).
Proof.
  intros Hdoc. repeat split.
  - intros g s. apply crosstab_cell_counts_codes. exact Hdoc.
  - intros s. apply crosstab_column_sums. exact Hdoc.
  - intros g. apply crosstab_row_totals. exact Hdoc.
  - apply crosstab_grand_total. exact Hdoc.
Qed.

(** [smoking_cells] with each test on the table read as a test on a
    count. *)
Lemma smoking_cells_by_counts (da : list (respondent num)) :
  Forall documented da ->
  smoking_cells (dropna da)
  = if negb (0 <? SMQ020x_value_counts da nosmoke)
    then KeyError (Column nosmoke)
    else if negb (0 <? SMQ020x_value_counts da smoke)
    then KeyError (Column smoke)
    else if negb (0 <? Total (pd_crosstab (dropna da)) Male)
    then KeyError (Row Male)
    else if negb (0 <? Total (pd_crosstab (dropna da)) Female)
    then KeyError (Row Female)
    else Found (ci_smoke (pd_crosstab (dropna da))).
Proof.
  intros Hdoc. unfold smoking_cells.
  rewrite (has_iff_ltb _ _ (columns_have_iff (dropna da) nosmoke)).
  rewrite (has_iff_ltb _ _ (columns_have_iff (dropna da) smoke)).
  rewrite (has_iff_ltb _ _ (index_has_iff (dropna da) Male)).
  rewrite (has_iff_ltb _ _ (index_has_iff (dropna da) Female)).
  rewrite !dropna_status_counts, !dropna_sex_counts by exact Hdoc.
  reflexivity.
Qed.

(** When the cells return, they return the interval of the cross-tab and
    both row totals are at least 1. *)
Lemma smoking_cells_found (da : list (respondent num)) (v : num * num) :
  Forall documented da ->
  smoking_cells (dropna da) = Found v ->
  v = ci_smoke (pd_crosstab (dropna da))
  /\ 1 <= Total (pd_crosstab (dropna da)) Female
  /\ 1 <= Total (pd_crosstab (dropna da)) Male.
Proof.
  intros Hdoc. rewrite (smoking_cells_by_counts da Hdoc).
  destruct (Z.ltb_spec 0 (SMQ020x_value_counts da nosmoke)); cbn [negb];
    [| discriminate].
  destruct (Z.ltb_spec 0 (SMQ020x_value_counts da smoke)); cbn [negb];
    [| discriminate].
  destruct (Z.ltb_spec 0 (Total (pd_crosstab (dropna da)) Male));
    cbn [negb]; [| discriminate].
  destruct (Z.ltb_spec 0 (Total (pd_crosstab (dropna da)) Female));
    cbn [negb]; [| discriminate].
  intros Hv. injection Hv as <-. repeat split; lia.
Qed.

(** X2.  Cells 7 to 12 end in a [KeyError] exactly when a label is
    missing, and otherwise never divide by zero.  With the codes of the
    codebook: the cells return their interval if and only if both
    statuses and both sexes occur among the rows that [dropna] keeps; when
    they do, each row total is at least 1; a table without non-smokers,
    and so the empty table, stops at the column [nosmoke] of cell 7. *)
Theorem smoking_cells_stop_on_missing_label (da : list (respondent num)) :
  Forall documented da ->
  (smoking_cells (dropna da) = Found (ci_smoke (pd_crosstab (dropna da)))
   <-> 0 < SMQ020x_value_counts da nosmoke
       /\ 0 < SMQ020x_value_counts da smoke
       /\ 0 < Total (pd_crosstab (dropna da)) Male
       /\ 0 < Total (pd_crosstab (dropna da)) Female)
  /\ (forall v : num * num,
        smoking_cells (dropna da) = Found v ->
        v = ci_smoke (pd_crosstab (dropna da))
        /\ 1 <= Total (pd_crosstab (dropna da)) Female
        /\ 1 <= Total (pd_crosstab (dropna da)) Male)
  /\ (SMQ020x_value_counts da nosmoke = 0 ->
      smoking_cells (dropna da) = KeyError (Column nosmoke))
  /\ (da = [] -> smoking_cells (dropna da) = KeyError (Column nosmoke)).
Proof.
  intros Hdoc.
  split; [| split; [intros v; apply smoking_cells_found; exact Hdoc |]].
  - rewrite (smoking_cells_by_counts da Hdoc).
    destruct (Z.ltb_spec 0 (SMQ020x_value_counts da nosmoke)); cbn [negb];
      [| split; [discriminate | lia]].
    destruct (Z.ltb_spec 0 (SMQ020x_value_counts da smoke)); cbn [negb];
      [| split; [discriminate | lia]].
    destruct (Z.ltb_spec 0 (Total (pd_crosstab (dropna da)) Male));
      cbn [negb]; [| split; [discriminate | lia]].
    destruct (Z.ltb_spec 0 (Total (pd_crosstab (dropna da)) Female));
      cbn [negb]; [| split; [discriminate | lia]].
    split; [intros _; repeat split; assumption | reflexivity].
  - assert (Hnone : SMQ020x_value_counts da nosmoke = 0 ->
                    smoking_cells (dropna da) = KeyError (Column nosmoke)).
    { intros Hz. rewrite (smoking_cells_by_counts da Hdoc), Hz.
      reflexivity. }
    split; [exact Hnone |].
    intros ->. reflexivity.
Qed.

End CrossTab.

Lemma documented_da_example : Forall documented da_example.
Proof.
  unfold da_example.
  repeat constructor; cbn [SMQ020 RIAGENDR]; lia.
Qed.

Lemma crosstab_accounts_for_every_row_witness :
  Forall documented da_example
  /\ (pd_crosstab (dropna da_example) Female smoke
      + pd_crosstab (dropna da_example) Male smoke)%Z
     = SMQ020x_value_counts da_example smoke
  /\ (Total (pd_crosstab (dropna da_example)) Female
      + Total (pd_crosstab (dropna da_example)) Male)%Z
     = 5%Z.
Proof.
  destruct (crosstab_accounts_for_every_row da_example documented_da_example)
    as [_ [Hcol [_ Hall]]].
  split; [exact documented_da_example | split; [apply Hcol |]].
  rewrite Hall. reflexivity.
Defined.

Lemma smoking_cells_stop_on_missing_label_witness :
  Forall documented da_example
  /\ (1 <= Total (pd_crosstab (dropna da_example)) Female)%Z
  /\ (1 <= Total (pd_crosstab (dropna da_example)) Male)%Z.
Proof.
  destruct (smoking_cells_stop_on_missing_label da_example
              documented_da_example) as [_ [Hfound _]].
  split; [exact documented_da_example |].
  apply (Hfound (ci_smoke (pd_crosstab (dropna da_example)))).
  reflexivity.
Defined.

(** * From the tables to the intervals, in exact arithmetic *)

Section ExactFlow.

Local Open Scope R_scope.

Lemma smoke_prop_exact (ct : crosstab) (g : RIAGENDRx) :
  smoke_prop ct g = IZR (ct g smoke) / IZR (Total ct g).
Proof. reflexivity. Qed.

Lemma nosmoke_prop_exact (ct : crosstab) (g : RIAGENDRx) :
  nosmoke_prop ct g = IZR (ct g nosmoke) / IZR (Total ct g).
Proof. reflexivity. Qed.

(** The proportions of a group that is not empty lie in [[0, 1]] and
    add up to 1. *)
Lemma proportion_bounds (ct : crosstab) (g : RIAGENDRx) :
  (0 <= ct g nosmoke)%Z -> (0 <= ct g smoke)%Z -> (0 < Total ct g)%Z ->
  nosmoke_prop ct g + smoke_prop ct g = 1 /\ 0 <= smoke_prop ct g <= 1.
Proof.
  intros Hn Hs Ht.
  rewrite smoke_prop_exact, nosmoke_prop_exact.
  assert (Htot : IZR (Total ct g) = IZR (ct g nosmoke) + IZR (ct g smoke)).
  { unfold Total. apply plus_IZR. }
  assert (Hn' : 0 <= IZR (ct g nosmoke)) by (apply IZR_le; exact Hn).
  assert (Hs' : 0 <= IZR (ct g smoke)) by (apply IZR_le; exact Hs).
  assert (Ht' : 0 < IZR (Total ct g)) by (apply IZR_lt; exact Ht).
  set (n := IZR (ct g nosmoke)) in *. set (k := IZR (ct g smoke)) in *.
  set (t := IZR (Total ct g)) in *.
  split; [rewrite Htot; field; lra |].
  split.
  - apply Rmult_le_pos; [exact Hs' | left; apply Rinv_0_lt_compat; exact Ht'].
  - apply Rmult_le_reg_r with t; [exact Ht' |].
    unfold Rdiv. rewrite Rmult_assoc, Rinv_l by lra. lra.
Qed.



Lemma crosstab_counts_nonneg (dx : list (respondent R)) (g : RIAGENDRx)
    (s : SMQ020x) :
  (0 <= pd_crosstab dx g s)%Z.
Proof. unfold pd_crosstab. apply count_rows_nonneg. Qed.

(** An interval built on a standard error that is not negative holds its
    point estimate. *)
Lemma bounds_hold_estimate (di se : R) :
  0 <= se -> lcb di se <= di <= ucb di se.
Proof. intros Hse. rewrite lcb_exact, ucb_exact. lra. Qed.

(** X4.  Whenever cells 7 to 12 return an interval for a table with the
    codes of the codebook, both group summaries meet the precondition of
    [standard_error_proportion] (a proportion in [[0, 1]], a count of at
    least 1), the difference of the rates lies in [[-1, 1]], and the
    interval is [di -+ 1.96 * se_diff] around it with [lcb <= di <= ucb].
    The counts that give [inf] or [nan] cannot come out of the cross-tab. *)
Theorem smoking_flow_meets_preconditions (da : list (respondent R))
    (l u : R) :
  Forall documented da ->
  smoking_cells (dropna da) = Found (l, u) ->
  valid_proportion_summary (smoking_summary (pd_crosstab (dropna da)) Female)
  /\ valid_proportion_summary (smoking_summary (pd_crosstab (dropna da)) Male)
  /\ -1 <= di_smoke (pd_crosstab (dropna da)) <= 1
  /\ l = di_smoke (pd_crosstab (dropna da))
         - 1.96 * se_diff (pd_crosstab (dropna da))
  /\ u = di_smoke (pd_crosstab (dropna da))
         + 1.96 * se_diff (pd_crosstab (dropna da))
  /\ l <= di_smoke (pd_crosstab (dropna da)) <= u.
Proof.
  intros Hdoc Hfound.
  destruct (smoking_cells_found da (l, u) Hdoc Hfound) as [Hv [Hf Hm]].
  set (ct := pd_crosstab (dropna da)) in *.
  assert (HF := proportion_bounds ct Female
                  (crosstab_counts_nonneg _ _ _)
                  (crosstab_counts_nonneg _ _ _) ltac:(lia)).
  assert (HM := proportion_bounds ct Male
                  (crosstab_counts_nonneg _ _ _)
                  (crosstab_counts_nonneg _ _ _) ltac:(lia)).
  destruct HF as [_ HpF]. destruct HM as [_ HpM].
  assert (HvF : valid_proportion_summary (smoking_summary ct Female)).
  { unfold valid_proportion_summary, smoking_summary.
    cbn [statistic count]. split; [exact HpF | lia]. }
  assert (HvM : valid_proportion_summary (smoking_summary ct Male)).
  { unfold valid_proportion_summary, smoking_summary.
    cbn [statistic count]. split; [exact HpM | lia]. }
  assert (Hdi : di_smoke ct = smoke_prop ct Male - smoke_prop ct Female)
    by reflexivity.
  pose proof (f_equal fst Hv) as Hl. pose proof (f_equal snd Hv) as Hu.
  unfold ci_smoke in Hl, Hu. cbn [fst snd] in Hl, Hu.
  rewrite lcb_exact in Hl. rewrite ucb_exact in Hu.
  assert (Hse : 0 <= se_diff ct) by apply pool_nonneg.
  split; [exact HvF |]. split; [exact HvM |].
  split; [rewrite Hdi; lra |].
  split; [exact Hl |]. split; [exact Hu |].
  rewrite Hl, Hu. lra.
Qed.

Lemma smoking_flow_meets_preconditions_witness :
  Forall documented da_example
  /\ smoking_cells (dropna da_example)
     = Found (ci_smoke (pd_crosstab (dropna da_example)))
  /\ -1 <= di_smoke (pd_crosstab (dropna da_example)) <= 1.
Proof.
  assert (Hrun : smoking_cells (dropna da_example)
                 = Found (lcb (di_smoke (pd_crosstab (dropna da_example)))
                            (se_diff (pd_crosstab (dropna da_example))),
                          ucb (di_smoke (pd_crosstab (dropna da_example)))
                            (se_diff (pd_crosstab (dropna da_example)))))
    by reflexivity.
  destruct (smoking_flow_meets_preconditions da_example _ _
              documented_da_example Hrun) as [_ [_ [Hdi _]]].
  split; [exact documented_da_example | split; [exact Hrun | exact Hdi]].
Defined.

(** ** The BMI table *)

Lemma measured_length (rows : list (respondent R)) :
  (length (measured rows) <= length rows)%nat.
Proof.
  induction rows as [| r rows IH]; [apply le_n |].
  cbn [measured]. destruct (BMXBMI r); cbn [length]; lia.
Qed.

Lemma pd_std_nonneg (xs : list R) : 0 <= pd_std xs.
Proof. unfold pd_std. apply sqrt_pos. Qed.

(** X5.  The standard error of the mean divides by the root of the whole
    group, missing measurements included.  [np.size] counts every row of
    the group while [std] is taken over the measured values, so with at
    least two measured values [std / np.sqrt(size)] is at most [std]
    divided by the root of the number of measured values, equal to it
    when no BMI is missing and strictly below it when one is missing and
    the values are not all equal.  The summary of the group meets the
    precondition of [standard_error_mean]. *)
Theorem sem_divides_by_all_rows (da : list (respondent R)) (g : RIAGENDRx) :
  (2 <= n_measured da g)%nat ->
  size (groupby_agg da g) = Z.of_nat (n_rows da g)
  /\ (n_measured da g <= n_rows da g)%nat
  /\ se_mean (std (groupby_agg da g)) (size (groupby_agg da g))
     = std (groupby_agg da g) / sqrt (INR (n_rows da g))
  /\ se_mean (std (groupby_agg da g)) (size (groupby_agg da g))
     <= std (groupby_agg da g) / sqrt (INR (n_measured da g))
  /\ (n_measured da g = n_rows da g ->
      se_mean (std (groupby_agg da g)) (size (groupby_agg da g))
      = std (groupby_agg da g) / sqrt (INR (n_measured da g)))
  /\ ((n_measured da g < n_rows da g)%nat ->
      0 < std (groupby_agg da g) ->
      se_mean (std (groupby_agg da g)) (size (groupby_agg da g))
      < std (groupby_agg da g) / sqrt (INR (n_measured da g)))
  /\ valid_mean_summary (bmi_summary (groupby_agg da) g).
Proof.
  intros Hk.
  pose proof (measured_length (group_rows da g)) as Hle.
  fold (n_measured da g) (n_rows da g) in Hle.
  unfold groupby_agg. cbn [std size]. fold (n_rows da g).
  set (sd := pd_std (measured (group_rows da g))).
  assert (Hsd : 0 <= sd) by apply pd_std_nonneg.
  rewrite se_mean_exact, <- INR_IZR_INZ.
  set (k := n_measured da g) in *. set (n := n_rows da g) in *.
  assert (Hk0 : 0 < INR k) by (apply lt_0_INR; lia).
  assert (Hn0 : 0 < INR n) by (apply lt_0_INR; lia).
  assert (Hkn : INR k <= INR n) by (apply le_INR; exact Hle).
  assert (Hrk : 0 < sqrt (INR k)) by (apply sqrt_lt_R0; exact Hk0).
  assert (Hrn : 0 < sqrt (INR n)) by (apply sqrt_lt_R0; exact Hn0).
  assert (Hroots : sqrt (INR k) <= sqrt (INR n))
    by (apply sqrt_le_1_alt; exact Hkn).
  assert (Hinv : / sqrt (INR n) <= / sqrt (INR k))
    by (apply Rinv_le_contravar; assumption).
  split; [reflexivity |]. split; [exact Hle |]. split; [reflexivity |].
  split; [unfold Rdiv; apply Rmult_le_compat_l; assumption |].
  split; [intros ->; reflexivity |].
  split.
  - intros Hlt Hpos.
    assert (Hkn' : INR k < INR n) by (apply lt_INR; exact Hlt).
    assert (Hroots' : sqrt (INR k) < sqrt (INR n))
      by (apply sqrt_lt_1_alt; lra).
    unfold Rdiv. apply Rmult_lt_compat_l; [exact Hpos |].
    apply Rinv_lt_contravar; [apply Rmult_lt_0_compat; assumption |].
    exact Hroots'.
  - unfold valid_mean_summary, bmi_summary.
    cbn [dispersion count std size].
    split; [exact Hsd |].
    unfold k, n, n_measured, n_rows in *. lia.
Qed.

Lemma sem_divides_by_all_rows_witness :
  (2 <= n_measured da_example Male)%nat
  /\ (n_measured da_example Male < n_rows da_example Male)%nat
  /\ se_mean (std (groupby_agg da_example Male))
       (size (groupby_agg da_example Male))
     = std (groupby_agg da_example Male) / sqrt (INR 3).
Proof.
  assert (Hk : (2 <= n_measured da_example Male)%nat)
    by (vm_compute; apply le_n).
  destruct (sem_divides_by_all_rows da_example Male Hk) as [_ [_ [Hsem _]]].
  split; [exact Hk | split; [vm_compute; apply le_n | exact Hsem]].
Defined.

(** ** More laws of the formulas *)

(** X6.  The standard error of a proportion is largest at [p = 1/2], where it
    is [1 / (2 * sqrt n)], and it is the same for [p] and [1 - p]. *)
Theorem se_proportion_largest_at_half (p : R) (n : Z) :
  0 <= p <= 1 -> (0 < n)%Z ->
  se_proportion p n <= 1 / (2 * sqrt (IZR n))
  /\ se_proportion (1 / 2) n = 1 / (2 * sqrt (IZR n))
  /\ se_proportion (1 - p) n = se_proportion p n.
Proof.
  intros Hp Hn.
  assert (Hn' : 0 < IZR n) by (apply IZR_lt; exact Hn).
  assert (Hroot : 0 < sqrt (IZR n)) by (apply sqrt_lt_R0; exact Hn').
  assert (Hhalf : sqrt (1 / 4 / IZR n) = 1 / (2 * sqrt (IZR n))).
  { apply sqrt_lem_1.
    - apply Rlt_le, Rdiv_lt_0_compat; lra.
    - apply Rlt_le, Rdiv_lt_0_compat; lra.
    - replace (1 / (2 * sqrt (IZR n)) * (1 / (2 * sqrt (IZR n))))
        with (1 / 4 / (sqrt (IZR n) * sqrt (IZR n))) by (field; lra).
      rewrite sqrt_sqrt by lra. reflexivity. }
  rewrite !se_proportion_exact. split; [| split].
  - rewrite <- Hhalf. apply sqrt_le_1_alt.
    assert (Hq : p * (1 - p) <= 1 / 4).
    { pose proof (Rle_0_sqr (p - 1 / 2)) as Hsq. unfold Rsqr in Hsq. lra. }
    apply Rmult_le_compat_r; [| exact Hq].
    left. apply Rinv_0_lt_compat. exact Hn'.
  - rewrite <- Hhalf. f_equal. lra.
  - f_equal. f_equal. ring.
Qed.

Lemma se_proportion_largest_at_half_witness :
  0 <= 0.304845 <= 1 /\ (0 < 2972)%Z
  /\ se_proportion 0.304845 2972 <= 1 / (2 * sqrt 2972).
Proof.
  assert (Hp : 0 <= 0.304845 <= 1) by lra.
  assert (Hn : (0 < 2972)%Z) by lia.
  split; [exact Hp | split; [exact Hn |]].
  exact (proj1 (se_proportion_largest_at_half 0.304845 2972 Hp Hn)).
Defined.

(** X7.  A value lies in the interval exactly when it is within [1.96]
    standard errors of the estimate; so the interval leaves out zero
    exactly when the estimate is more than [1.96] standard errors away
    from zero. *)
Theorem interval_holds_values_within_multiplier (di se v : R) :
  (lcb di se <= v <= ucb di se <-> Rabs (v - di) <= 1.96 * se)
  /\ (0 < lcb di se \/ ucb di se < 0 <-> 1.96 * se < Rabs di).
Proof.
  rewrite lcb_exact, ucb_exact. split.
  - unfold Rabs. destruct (Rcase_abs (v - di)); split; intros Hx; lra.
  - unfold Rabs. destruct (Rcase_abs di); split; intros Hx; lra.
Qed.

(** X8.  The pooled standard error is at most the sum of the two standard
    errors; pooling with a standard error of zero gives back the other
    one; and pooling commutes with a change of unit. *)
Theorem pooled_error_at_most_sum (se_a se_b : R) :
  0 <= se_a -> 0 <= se_b ->
  pool_standard_errors se_a se_b <= se_a + se_b
  /\ pool_standard_errors se_a 0 = se_a
  /\ (forall c : R, 0 <= c ->
        pool_standard_errors (c * se_a) (c * se_b)
        = c * pool_standard_errors se_a se_b).
Proof.
  intros Ha Hb. rewrite !pool_exact. split; [| split].
  - rewrite <- (sqrt_pow2 (se_a + se_b)) by lra.
    apply sqrt_le_1_alt. nra.
  - replace (se_a ^ 2 + 0 ^ 2) with (se_a ^ 2) by ring.
    apply sqrt_pow2. exact Ha.
  - intros c Hc. rewrite pool_exact.
    replace ((c * se_a) ^ 2 + (c * se_b) ^ 2)
      with (c ^ 2 * (se_a ^ 2 + se_b ^ 2)) by ring.
    rewrite sqrt_mult_alt by apply pow2_ge_0.
    rewrite sqrt_pow2 by exact Hc. reflexivity.
Qed.

Lemma pooled_error_at_most_sum_witness :
  0 <= 3 /\ 0 <= 4 /\ pool_standard_errors 3 4 <= 3 + 4.
Proof.
  assert (H3 : 0 <= 3) by lra.
  assert (H4 : 0 <= 4) by lra.
  split; [exact H3 | split; [exact H4 |]].
  exact (proj1 (pooled_error_at_most_sum 3 4 H3 H4)).
Defined.

(** X9.  Taking the difference the other way round mirrors the interval: the
    point estimate changes sign, the pooled standard error stays, and the
    bounds swap with their signs changed. *)
Theorem swapping_groups_mirrors_interval (a b : SampleSummary R) (k : kind)
    (cov : R) :
  valid_summary k a -> valid_summary k b ->
  point_estimate (difference_interval b a k cov)
  = - point_estimate (difference_interval a b k cov)
  /\ standard_error (difference_interval b a k cov)
     = standard_error (difference_interval a b k cov)
  /\ lower_bound (difference_interval b a k cov)
     = - upper_bound (difference_interval a b k cov)
  /\ upper_bound (difference_interval b a k cov)
     = - lower_bound (difference_interval a b k cov).
Proof.
  intros _ _. unfold difference_interval, confidence_interval.
  cbn [point_estimate standard_error lower_bound upper_bound].
  rewrite !lcb_exact, !ucb_exact, !pool_exact.
  rewrite (sum_squares_comm (group_standard_error k b)).
  cbn [np_sub R_arith].
  repeat split; ring.
Qed.

Lemma swapping_groups_mirrors_interval_witness :
  valid_summary Proportion male_smoking
  /\ valid_summary Proportion female_smoking
  /\ lower_bound (difference_interval female_smoking male_smoking
                    Proportion 0.95)
     = - upper_bound (difference_interval male_smoking female_smoking
                        Proportion 0.95).
Proof.
  assert (Hm : valid_summary Proportion (male_smoking : SampleSummary R)).
  { unfold valid_summary, valid_proportion_summary; simpl.
    split; [lra | lia]. }
  assert (Hf : valid_summary Proportion (female_smoking : SampleSummary R)).
  { unfold valid_summary, valid_proportion_summary; simpl.
    split; [lra | lia]. }
  destruct (swapping_groups_mirrors_interval male_smoking female_smoking
              Proportion 0.95 Hm Hf) as [_ [_ [Hl _]]].
  split; [exact Hm | split; [exact Hf | exact Hl]].
Defined.

(** X10.  Standard errors shrink with the root of the count: a group [c * c]
    times as large has a standard error [c] times smaller, for the mean
    and for a proportion alike. *)
Theorem standard_errors_shrink_with_root_of_count (sd p : R) (n c : Z) :
  0 <= p <= 1 -> (0 < n)%Z -> (0 < c)%Z ->
  se_mean sd (c * c * n) = se_mean sd n / IZR c
  /\ se_proportion p (c * c * n) = se_proportion p n / IZR c.
Proof.
  intros Hp Hn Hc.
  assert (Hn' : 0 < IZR n) by (apply IZR_lt; exact Hn).
  assert (Hc' : 0 < IZR c) by (apply IZR_lt; exact Hc).
  assert (Hroot : 0 < sqrt (IZR n)) by (apply sqrt_lt_R0; exact Hn').
  assert (Hscale : sqrt (IZR (c * c * n)) = IZR c * sqrt (IZR n)).
  { rewrite !mult_IZR, sqrt_mult_alt by nra.
    rewrite sqrt_square by lra. reflexivity. }
  rewrite !se_mean_exact, !se_proportion_exact. split.
  - rewrite Hscale. field. lra.
  - replace (p * (1 - p) / IZR (c * c * n))
      with (p * (1 - p) / IZR n / (IZR c * IZR c))
      by (rewrite !mult_IZR; field; lra).
    rewrite sqrt_div_alt by nra.
    rewrite sqrt_square by lra. reflexivity.
Qed.

Lemma standard_errors_shrink_with_root_of_count_witness :
  0 <= 0.304845 <= 1 /\ (0 < 2976)%Z /\ (0 < 2)%Z
  /\ se_mean 7.753319 (2 * 2 * 2976) = se_mean 7.753319 2976 / 2.
Proof.
  assert (Hp : 0 <= 0.304845 <= 1) by lra.
  assert (Hn : (0 < 2976)%Z) by lia.
  assert (Hc : (0 < 2)%Z) by lia.
  split; [exact Hp | split; [exact Hn | split; [exact Hc |]]].
  exact (proj1 (standard_errors_shrink_with_root_of_count
                  7.753319 0.304845 2976 2 Hp Hn Hc)).
Defined.

End ExactFlow.

(** * binary64: a group without smokers *)

Section DegenerateGroup.

Local Open Scope Z_scope.

(** X11.  A group in which nobody smokes has, in binary64, a smoking rate of
    exactly [+0.0] and a standard error of exactly [+0.0]: no [nan], no
    warning, and the pooled standard error rests on the other group. *)
Theorem group_without_smokers_binary64 (ct : crosstab) (g : RIAGENDRx) :
  ct g smoke = 0 -> 0 < Total ct g < 2 ^ 63 ->
  (smoke_prop ct g : float) = 0%float
  /\ se_proportion (smoke_prop ct g : float) (Total ct g) = 0%float
  /\ (g = Female -> (se_female ct : float) = 0%float)
  /\ (g = Male -> (se_male ct : float) = 0%float).
Proof.
  intros Hzero Htotal.
  assert (Hp : (smoke_prop ct g : float) = 0%float).
  { unfold smoke_prop. rewrite Hzero.
    cbn [np_div of_int float64_arith of_int64].
    apply zero_div_positive, of_int64_positive. exact Htotal. }
  assert (Hse : se_proportion (smoke_prop ct g : float) (Total ct g)
                = 0%float).
  { rewrite Hp. apply se_proportion_degenerate_binary64. exact Htotal. }
  split; [exact Hp | split; [exact Hse |]].
  split; intros ->; exact Hse.
Qed.

Lemma group_without_smokers_binary64_witness :
  (0 < 5 < 2 ^ 63)
  /\ se_proportion
       (smoke_prop (fun _ s => match s with nosmoke => 5 | smoke => 0 end)
          Female : float) 5
     = 0%float.
Proof.
  assert (Ht : 0 < 5 < 2 ^ 63) by lia.
  split; [exact Ht |].
  exact (proj1 (proj2 (group_without_smokers_binary64
                         (fun _ s => match s with nosmoke => 5 | smoke => 0 end)
                         Female eq_refl Ht))).
Defined.

End DegenerateGroup.
